(** * gesture_video: the swipe debouncer and the feed controller

    A shallow embedding of the two React components of the repository:

    - [GestureController] (the per-frame loop [predictWebcam], the cooldown
      lock [triggerCooldown] and its timer callback), present in
      [src/App.tsx] (colour panels, 1000 ms cooldown) and in the video-feed
      variant (1200 ms cooldown);
    - the feed controller [handleSwipe] of [App] and of [TikTokApp].

    JavaScript numbers holding landmark coordinates are IEEE 754 binary64
    values and are modelled by Rocq's primitive floats; the panel index and
    pixel offsets only ever hold integers and are modelled in [Z]. *)

From Stdlib Require Import Floats ZArith List String Bool Lia.
Import ListNotations.

Set Warnings "-inexact-float".

Local Open Scope Z_scope.

(** ** Shared data *)

Definition number := float.

(** The string union ['NEXT' | 'PREV'] passed to [onSwipe]. *)
Inductive SwipeEvent : Type := NEXT | PREV.

Definition SwipeEvent_eqb (a b : SwipeEvent) : bool :=
  match a, b with
  | NEXT, NEXT | PREV, PREV => true
  | _, _ => false
  end.

(** A MediaPipe landmark: normalised coordinates. *)
Record NormalizedLandmark : Type := { x : number; y : number; z : number }.

(** One detected hand. The recogniser reports a fixed, non-empty landmark
    list per hand; index 0 (read by [hand[0]]) is the wrist. *)
Record Hand : Type := { wrist : NormalizedLandmark; joints : list NormalizedLandmark }.

(** ** GestureController *)

Module GestureController.

(** What one invocation of [predictWebcam] reads from its surroundings:
    whether [gestureRecognizer], [videoRef.current], [canvasRef.current] and
    the 2D context are non-null, the video width, and [results.landmarks]. *)
Record Frame : Type := {
  gestureRecognizer : bool;
  videoRef : bool;
  canvasRef : bool;
  videoWidth : Z;
  ctx : bool;
  landmarks : list Hand
}.

(** The mutable cells of one mounted controller: the two refs and the
    [isMounted] flag of the effect closure. *)
Record Store : Type := {
  lastYRef : option number;
  isCooldownRef : bool;
  isMounted : bool
}.

(** Initial values: [useRef(null)], [useRef(false)], [let isMounted = true]. *)
Definition initialStore : Store :=
  {| lastYRef := None; isCooldownRef := false; isMounted := true |}.

(** Calls that leave the component. Canvas drawing, the border colour and
    console logging touch neither the refs nor the callbacks and are left
    out. *)
Inductive Effect : Type :=
| OnSwipe (direction : SwipeEvent)
| SetTimeout (ms : Z)
| RequestAnimationFrame.

(** A state-and-output monad for the closure bodies. *)
Definition M (A : Type) : Type := Store -> A * Store * list Effect.

Definition ret {A : Type} (a : A) : M A := fun s => (a, s, []).

Definition bind {A B : Type} (m : M A) (k : A -> M B) : M B :=
  fun s =>
    let r1 := m s in
    let r2 := k (fst (fst r1)) (snd (fst r1)) in
    (fst (fst r2), snd (fst r2), snd r1 ++ snd r2).

Notation "v <- m ;; k" := (bind m (fun v => k))
  (at level 61, m at next level, right associativity).
Notation "m ;; k" := (bind m (fun _ => k))
  (at level 61, right associativity).

Definition get : M Store := fun s => (s, s, []).
Definition call (e : Effect) : M unit := fun s => (tt, s, [e]).
Definition when (c : bool) (m : M unit) : M unit := if c then m else ret tt.

Definition setLastY (v : option number) : M unit :=
  fun s => (tt, {| lastYRef := v; isCooldownRef := isCooldownRef s;
                   isMounted := isMounted s |}, []).
Definition setCooldown (v : bool) : M unit :=
  fun s => (tt, {| lastYRef := lastYRef s; isCooldownRef := v;
                   isMounted := isMounted s |}, []).
Definition setMounted (v : bool) : M unit :=
  fun s => (tt, {| lastYRef := lastYRef s; isCooldownRef := isCooldownRef s;
                   isMounted := v |}, []).

Definition exec (m : M unit) (s : Store) : Store := snd (fst (m s)).
Definition output (m : M unit) (s : Store) : list Effect := snd (m s).

(** The swipe events among a list of effects, in order. *)
Fixpoint swipes (es : list Effect) : list SwipeEvent :=
  match es with
  | [] => []
  | OnSwipe d :: es' => d :: swipes es'
  | _ :: es' => swipes es'
  end.

Section Controller.

(** The delay passed to [setTimeout] (1000 in [App.tsx], 1200 in the video
    feed) and the truthiness of the [debugMode] prop. *)
Variable cooldownMs : Z.
Variable debugMode : bool.

(** [triggerCooldown]: lock, and schedule the unlock. *)
Definition triggerCooldown : M unit :=
  setCooldown true ;;
  call (SetTimeout cooldownMs).

(** The callback given to [setTimeout] by [triggerCooldown]. *)
Definition cooldownTimeout : M unit :=
  s <- get ;;
  if negb (isMounted s) then ret tt
  else
    setCooldown false ;;
    setLastY None.

(** [predictWebcam]: one iteration of the animation-frame loop. *)
Definition predictWebcam (f : Frame) : M unit :=
  s <- get ;;
  if negb (isMounted s) then ret tt
  else
    when (gestureRecognizer f && videoRef f && canvasRef f) (
      when (0 <? videoWidth f) (
        when (ctx f && debugMode) (
          match landmarks f with
          | hand :: _ =>
              let currY := y (wrist hand) in
              r <- get ;;
              match lastYRef r with
              | Some lastY =>
                  when (negb (isCooldownRef r)) (
                    let deltaY := (currY - lastY)%float in
                    let threshold := 0.08%float in
                    if (deltaY <? - threshold)%float then
                      call (OnSwipe NEXT) ;;
                      triggerCooldown
                    else if (threshold <? deltaY)%float then
                      call (OnSwipe PREV) ;;
                      triggerCooldown
                    else ret tt)
              | None => ret tt
              end ;;
              setLastY (Some currY)
          | [] => setLastY None
          end)) ;;
      call RequestAnimationFrame).

(** The cleanup returned by the effect. *)
Definition cleanup : M unit := setMounted false.

(** What the browser can run next on the component. *)
Inductive Tick : Type :=
| AnimationFrame (f : Frame)
| TimerFired
| Cleanup.

Definition tick (t : Tick) : M unit :=
  match t with
  | AnimationFrame f => predictWebcam f
  | TimerFired => cooldownTimeout
  | Cleanup => cleanup
  end.

Fixpoint run (ts : list Tick) : M unit :=
  match ts with
  | [] => ret tt
  | t :: ts' => tick t ;; run ts'
  end.

(** A frame reaches the gesture block when every guard in front of it
    passes. *)
Definition processed (f : Frame) (s : Store) : bool :=
  isMounted s && gestureRecognizer f && videoRef f && canvasRef f
  && (0 <? videoWidth f) && ctx f && debugMode.

End Controller.

(** Frames with every guard passing: a hand whose wrist is at height [v],
    and no hand at all. *)
Definition handAt (v : number) : Hand :=
  {| wrist := {| x := 0.5%float; y := v; z := 0%float |}; joints := [] |}.
Definition detected (v : number) : Frame :=
  {| gestureRecognizer := true; videoRef := true; canvasRef := true;
     videoWidth := 640; ctx := true; landmarks := [handAt v] |}.
Definition noHand : Frame :=
  {| gestureRecognizer := true; videoRef := true; canvasRef := true;
     videoWidth := 640; ctx := true; landmarks := [] |}.

End GestureController.

(** ** Feed controller *)

(** The argument of [containerRef.current?.scrollTo]. *)
Record ScrollToOptions : Type := { top : Z; behavior : string }.

(** What the state updater of [handleSwipe] reads besides the previous
    index: whether [containerRef.current] is non-null, and
    [window.innerHeight]. *)
Record Page : Type := { containerRef : bool; innerHeight : Z }.

(** The colour-panel application of [src/App.tsx]. *)
Module App.

Record Panel : Type := { id : Z; color : string; title : string }.

Definition COLORS : list Panel :=
  [ {| id := 1; color := "#FF5733"; title := "红色页面 (Red)" |};
    {| id := 2; color := "#33FF57"; title := "绿色页面 (Green)" |};
    {| id := 3; color := "#3357FF"; title := "蓝色页面 (Blue)" |};
    {| id := 4; color := "#F333FF"; title := "紫色页面 (Purple)" |} ].

(** [useState(0)]. *)
Definition initialActiveIndex : Z := 0.

(** The updater passed to [setActiveIndex] by [handleSwipe]: the new index,
    and the scroll requests issued on the way. *)
Definition handleSwipe (p : Page) (direction : SwipeEvent) (prevIndex : Z)
  : Z * list ScrollToOptions :=
  let newIndex :=
    if SwipeEvent_eqb direction NEXT && (prevIndex <? Z.of_nat (List.length COLORS) - 1)
    then prevIndex + 1
    else if SwipeEvent_eqb direction PREV && (prevIndex >? 0)
    then prevIndex - 1
    else prevIndex in
  let requests :=
    if negb (newIndex =? prevIndex) then
      if containerRef p
      then [ {| top := newIndex * innerHeight p; behavior := "smooth" |} ]
      else []
    else [] in
  (newIndex, requests).

(** The controller as mounted by [App]: [debugMode={true}], 1000 ms. *)
Definition predictWebcam := GestureController.predictWebcam 1000 true.

End App.

(** The video-feed application [TikTokApp]. *)
Module TikTokApp.

Record Video : Type := { id : Z; url : string; title : string; desc : string }.

Definition VIDEOS : list Video :=
  [ {| id := 1;
       url := "https://storage.googleapis.com/gtv-videos-bucket/sample/BigBuckBunny.mp4";
       title := "Big Buck Bunny";
       desc := "经典的开源动画测试视频" |};
    {| id := 2;
       url := "https://storage.googleapis.com/gtv-videos-bucket/sample/ElephantsDream.mp4";
       title := "Elephants Dream";
       desc := "3D 建模测试" |};
    {| id := 3;
       url := "https://storage.googleapis.com/gtv-videos-bucket/sample/ForBiggerBlazes.mp4";
       title := "For Bigger Blazes";
       desc := "高清风景演示" |};
    {| id := 4;
       url := "https://storage.googleapis.com/gtv-videos-bucket/sample/TearsOfSteel.mp4";
       title := "Tears of Steel";
       desc := "科幻实拍合成" |} ].

Definition initialActiveIndex : Z := 0.

Definition handleSwipe (p : Page) (direction : SwipeEvent) (prevIndex : Z)
  : Z * list ScrollToOptions :=
  let newIndex :=
    if SwipeEvent_eqb direction NEXT && (prevIndex <? Z.of_nat (List.length VIDEOS) - 1)
    then prevIndex + 1
    else if SwipeEvent_eqb direction PREV && (prevIndex >? 0)
    then prevIndex - 1
    else prevIndex in
  let requests :=
    if negb (newIndex =? prevIndex) then
      if containerRef p
      then [ {| top := newIndex * innerHeight p; behavior := "smooth" |} ]
      else []
    else [] in
  (newIndex, requests).

Definition predictWebcam := GestureController.predictWebcam 1200 true.

End TikTokApp.

(** The two applications behind one interface. *)
Inductive Variant : Type := ColorPanels | VideoFeed.

Definition panelCount (v : Variant) : Z :=
  match v with
  | ColorPanels => Z.of_nat (List.length App.COLORS)
  | VideoFeed => Z.of_nat (List.length TikTokApp.VIDEOS)
  end.

Definition initialActiveIndex (v : Variant) : Z :=
  match v with
  | ColorPanels => App.initialActiveIndex
  | VideoFeed => TikTokApp.initialActiveIndex
  end.

Definition handleSwipe (v : Variant) : Page -> SwipeEvent -> Z -> Z * list ScrollToOptions :=
  match v with
  | ColorPanels => App.handleSwipe
  | VideoFeed => TikTokApp.handleSwipe
  end.

(** The FeedState invariant of the data model. *)
Definition FeedInvariant (v : Variant) (activeIndex : Z) : Prop :=
  0 <= activeIndex < panelCount v.

(** The index after a whole list of swipes, starting from [i]. *)
Fixpoint swipeAll (v : Variant) (p : Page) (ds : list SwipeEvent) (i : Z) : Z :=
  match ds with
  | [] => i
  | d :: ds' => swipeAll v p ds' (fst (handleSwipe v p d i))
  end.

(** ** The threshold rule as the specification words it

    Section 4.1: with a configured [THRESHOLD], a delta below [-THRESHOLD]
    gives NEXT, else a delta above [THRESHOLD] gives PREV, else nothing. *)
Definition spec_decide (THRESHOLD delta : number) : list SwipeEvent :=
  if (delta <? - THRESHOLD)%float then [NEXT]
  else if (THRESHOLD <? delta)%float then [PREV]
  else [].


(** ** The rest of the two files *)

(** The delay each application passes to [setTimeout] in
    [triggerCooldown]. *)
Definition cooldownDelay (v : Variant) : Z :=
  match v with
  | ColorPanels => 1000
  | VideoFeed => 1200
  end.

(** The delays of the timers scheduled among a list of effects, and the
    number of animation frames requested. *)
Fixpoint timers (es : list GestureController.Effect) : list Z :=
  match es with
  | [] => []
  | GestureController.SetTimeout ms :: es' => ms :: timers es'
  | _ :: es' => timers es'
  end.

Fixpoint frameRequests (es : list GestureController.Effect) : nat :=
  match es with
  | [] => 0%nat
  | GestureController.RequestAnimationFrame :: es' => S (frameRequests es')
  | _ :: es' => frameRequests es'
  end.

(** A list of ticks during which no cooldown timer fires. *)
Definition timerFree (ts : list GestureController.Tick) : bool :=
  forallb (fun t => match t with
                    | GestureController.TimerFired => false
                    | _ => true
                    end) ts.

(** The scroll requests of a whole list of swipes, starting from [i]. *)
Fixpoint scrollAll (v : Variant) (p : Page) (ds : list SwipeEvent) (i : Z)
  : list ScrollToOptions :=
  match ds with
  | [] => []
  | d :: ds' =>
      snd (handleSwipe v p d i) ++ scrollAll v p ds' (fst (handleSwipe v p d i))
  end.

(** The application as wired by [<GestureController onSwipe={handleSwipe}
    debugMode={true} />]: the active index after the controller has run the
    ticks [ts] from its initial store. *)
Definition activeIndexAfter (v : Variant) (p : Page)
  (ts : list GestureController.Tick) : Z :=
  swipeAll v p
    (GestureController.swipes
       (GestureController.output
          (GestureController.run (cooldownDelay v) true ts)
          GestureController.initialStore))
    (initialActiveIndex v).

(** *** [setup] *)

Module Setup.

(** What [setup] meets on its way. A promise that rejects carries the
    [message] of the error. [predictWebcamThrows] tells whether the first
    [predictWebcam()] call, made inside the inner [try], throws. [unmountAt]
    tells during which [await] the effect cleanup ran, if it did: 0 for
    [forVisionTasks], 1 for [createFromOptions], 2 for [getUserMedia], 3 for
    [play]. *)
Record Env : Type := {
  forVisionTasks : option string;
  createFromOptions : option string;
  mediaDevices : bool;
  getUserMedia : bool;
  videoRefCurrent : bool;
  predictWebcamThrows : bool;
  unmountAt : option nat
}.

(** [isMounted] as read once the [k]-th [await] has returned. *)
Definition isMountedAfter (e : Env) (k : nat) : bool :=
  match unmountAt e with
  | None => true
  | Some j => Nat.ltb k j
  end.

Inductive Call : Type :=
| OnStatus (message : string)
| CreateFromOptions
| GetUserMedia
| SetSrcObject
| Play
| PredictWebcam.

(** [setup], as the calls it makes, in order. The [catch] of the inner
    [try] is reached by a rejected [getUserMedia] and by a throw of the
    first [predictWebcam()]; the [catch] of the outer one by a rejected
    load. *)
Definition setup (e : Env) : list Call :=
  OnStatus "正在初始化 AI 引擎..." ::
  match forVisionTasks e with
  | Some message =>
      if isMountedAfter e 0 then [OnStatus ("❌ 错误: " ++ message)] else []
  | None =>
      if negb (isMountedAfter e 0) then []
      else
        CreateFromOptions ::
        match createFromOptions e with
        | Some message =>
            if isMountedAfter e 1 then [OnStatus ("❌ 错误: " ++ message)] else []
        | None =>
            if mediaDevices e then
              GetUserMedia ::
              (if getUserMedia e then
                 if videoRefCurrent e && isMountedAfter e 2 then
                   [SetSrcObject; Play;
                    OnStatus "✅ 准备就绪：请对着摄像头挥手"; PredictWebcam]
                   ++ (if predictWebcamThrows e then
                         if isMountedAfter e 3
                         then [OnStatus "❌ 摄像头权限被拒绝"]
                         else []
                       else [])
                 else []
               else
                 if isMountedAfter e 2 then [OnStatus "❌ 摄像头权限被拒绝"] else [])
            else []
        end
  end.

(** The messages handed to [onStatus], in order. *)
Fixpoint statuses (cs : list Call) : list string :=
  match cs with
  | [] => []
  | OnStatus m :: cs' => m :: statuses cs'
  | _ :: cs' => statuses cs'
  end.

Definition Call_eqb (a b : Call) : bool :=
  match a, b with
  | OnStatus m, OnStatus n => String.eqb m n
  | CreateFromOptions, CreateFromOptions
  | GetUserMedia, GetUserMedia
  | SetSrcObject, SetSrcObject
  | Play, Play
  | PredictWebcam, PredictWebcam => true
  | _, _ => false
  end.

Definition calls (c : Call) (cs : list Call) : bool := existsb (Call_eqb c) cs.

End Setup.

(** *** The playback effect of [TikTokApp] *)

Module Playback.

(** Calls made on the video elements, by index in [videoRefs.current]. The
    rejection handler of [play()] runs after the [forEach] has returned. *)
Inductive Call : Type :=
| SetMuted (index : Z) (muted : bool)
| Play (index : Z)
| Pause (index : Z)
| SetCurrentTime (index : Z) (t : Z).

(** The body of the [forEach] callback, for the element at [index]:
    [video] tells whether the entry is an element rather than null. *)
Definition visit (activeIndex : Z) (video : bool) (index : Z) : list Call :=
  if negb video then []
  else if index =? activeIndex then [SetMuted index false; Play index]
  else [Pause index; SetCurrentTime index 0].

Fixpoint forEachFrom (activeIndex : Z) (videoRefs : list bool) (index : Z)
  : list Call :=
  match videoRefs with
  | [] => []
  | video :: rest =>
      visit activeIndex video index ++ forEachFrom activeIndex rest (index + 1)
  end.

Definition isPlay (c : Call) : bool :=
  match c with Play _ => true | _ => false end.

(** The element a call is made on. *)
Definition callIndex (c : Call) : Z :=
  match c with
  | SetMuted index _ | Play index | Pause index | SetCurrentTime index _ => index
  end.

(** The [catch] handler of the [play()] of the active video. *)
Definition playRejected (index : Z) : list Call :=
  [SetMuted index true; Play index].

(** The effect run for [activeIndex]: the [forEach], then the handler of
    the active video when the browser rejects its unmuted [play()]. *)
Definition playbackEffect (rejects : bool) (videoRefs : list bool)
  (activeIndex : Z) : list Call :=
  forEachFrom activeIndex videoRefs 0
  ++ (if rejects && existsb isPlay (forEachFrom activeIndex videoRefs 0)
      then playRejected activeIndex
      else []).

End Playback.

(** * Properties *)

Import GestureController.

(** Unfolds the monadic plumbing of the controller bodies. *)
Ltac unfold_controller :=
  unfold processed, exec, output, tick, predictWebcam, cooldownTimeout,
    triggerCooldown, cleanup, when, bind, get, call, ret, setLastY,
    setCooldown, setMounted in *;
  cbn [fst snd app swipes lastYRef isCooldownRef isMounted negb andb] in *.

(** Splits the conjunction of guards recorded by [processed]. *)
Ltac split_guards H :=
  repeat (apply andb_prop in H;
          let H' := fresh "G" in destruct H as [H H']).

(** ** The scenarios of the specification, run on the code *)

Example scenario_next_once :
  swipes (output (run 1000 true
    [AnimationFrame (detected 0.5%float); AnimationFrame (detected 0.5%float);
     AnimationFrame (detected 0.3%float)]) initialStore) = [NEXT]
  /\ swipes (output (run 1000 true
    [AnimationFrame (detected 0.5%float); AnimationFrame (detected 0.5%float)])
    initialStore) = [].
Proof. split; vm_compute; reflexivity. Qed.

Example scenario_below_threshold :
  swipes (output (run 1000 true
    [AnimationFrame (detected 0.5%float); AnimationFrame (detected 0.52%float)])
    initialStore) = [].
Proof. vm_compute; reflexivity. Qed.

Example scenario_gap :
  swipes (output (run 1000 true
    [AnimationFrame (detected 0.5%float); AnimationFrame noHand;
     AnimationFrame (detected 0.3%float)]) initialStore) = [].
Proof. vm_compute; reflexivity. Qed.

Example scenario_prev :
  swipes (output (run 1200 true
    [AnimationFrame (detected 0.25%float); AnimationFrame (detected 0.5%float)])
    initialStore) = [PREV].
Proof. vm_compute; reflexivity. Qed.

(** ** The debouncer step *)

(** What a frame that reaches the gesture block with a hand in view does,
    written out: the only stuck parts are the two float comparisons. *)
Lemma predictWebcam_hand ms dbg f s hand rest :
  processed dbg f s = true ->
  landmarks f = hand :: rest ->
  predictWebcam ms dbg f s =
    match lastYRef s with
    | Some lastY =>
        if isCooldownRef s then
          (tt, {| lastYRef := Some (y (wrist hand)); isCooldownRef := true;
                  isMounted := isMounted s |}, [RequestAnimationFrame])
        else if (y (wrist hand) - lastY <? - (0.08))%float then
          (tt, {| lastYRef := Some (y (wrist hand)); isCooldownRef := true;
                  isMounted := isMounted s |},
           [OnSwipe NEXT; SetTimeout ms; RequestAnimationFrame])
        else if (0.08 <? y (wrist hand) - lastY)%float then
          (tt, {| lastYRef := Some (y (wrist hand)); isCooldownRef := true;
                  isMounted := isMounted s |},
           [OnSwipe PREV; SetTimeout ms; RequestAnimationFrame])
        else
          (tt, {| lastYRef := Some (y (wrist hand)); isCooldownRef := false;
                  isMounted := isMounted s |}, [RequestAnimationFrame])
    | None =>
        (tt, {| lastYRef := Some (y (wrist hand));
                isCooldownRef := isCooldownRef s;
                isMounted := isMounted s |}, [RequestAnimationFrame])
    end.
Proof.
  intros G Hl. unfold processed in G. split_guards G.
  destruct s as [ly cool mnt]; cbn [isMounted] in G; subst mnt.
  unfold predictWebcam, when, bind, get.
  cbn [fst snd lastYRef isCooldownRef isMounted].
  rewrite G0, G1, G2, G3, G4, G5, Hl. cbn [negb andb].
  destruct ly as [lastY|]; [destruct cool|]; cbn [negb];
    unfold triggerCooldown, call, ret, setLastY, setCooldown, bind;
    cbn [fst snd app lastYRef isCooldownRef isMounted]; try reflexivity.
  destruct (y (wrist hand) - lastY <? - (0.08))%float; [reflexivity|].
  destruct (0.08 <? y (wrist hand) - lastY)%float; reflexivity.
Qed.

(** A frame that reaches the gesture block with no hand in view. *)
Lemma predictWebcam_gap ms dbg f s :
  processed dbg f s = true ->
  landmarks f = [] ->
  predictWebcam ms dbg f s =
    (tt, {| lastYRef := None; isCooldownRef := isCooldownRef s;
            isMounted := isMounted s |}, [RequestAnimationFrame]).
Proof.
  intros G Hl. unfold processed in G. split_guards G.
  destruct s as [ly cool mnt]; cbn [isMounted] in G; subst mnt.
  unfold predictWebcam, when, bind, get.
  cbn [fst snd lastYRef isCooldownRef isMounted].
  rewrite G0, G1, G2, G3, G4, G5, Hl. cbn [negb andb].
  unfold setLastY, call. reflexivity.
Qed.

(** A frame stopped by one of the guards: the store is untouched and the
    only possible effect is the request for the next animation frame. *)
Lemma predictWebcam_skipped ms dbg f s :
  processed dbg f s = false ->
  exec (predictWebcam ms dbg f) s = s
  /\ swipes (output (predictWebcam ms dbg f) s) = [].
Proof.
  intros G. unfold processed in G.
  unfold exec, output, predictWebcam, when, bind, get, call, ret.
  cbn [fst snd].
  destruct (isMounted s); cbn [negb andb] in *; [|split; reflexivity].
  destruct (gestureRecognizer f), (videoRef f), (canvasRef f);
    cbn [andb] in *; try (split; reflexivity).
  destruct (0 <? videoWidth f); cbn [andb] in *; [|split; reflexivity].
  destruct (ctx f); cbn [andb] in *; [|split; reflexivity].
  rewrite G. split; reflexivity.
Qed.

(** No path of [predictWebcam] calls [onSwipe] twice, and the events it can
    give are exactly these three lists. *)
Lemma predictWebcam_swipes_cases ms dbg f s :
  let evs := swipes (output (predictWebcam ms dbg f) s) in
  evs = [] \/ evs = [NEXT] \/ evs = [PREV].
Proof.
  cbv zeta. destruct (processed dbg f s) eqn:G.
  - destruct (landmarks f) as [|hand rest] eqn:Hl.
    + unfold output. rewrite (predictWebcam_gap ms dbg f s G Hl). now left.
    + unfold output. rewrite (predictWebcam_hand ms dbg f s hand rest G Hl).
      destruct (lastYRef s) as [lastY|]; [|now left].
      destruct (isCooldownRef s); [now left|].
      destruct (y (wrist hand) - lastY <? - (0.08))%float; [right; now left|].
      destruct (0.08 <? y (wrist hand) - lastY)%float; [right; now right|now left].
  - left. apply predictWebcam_skipped, G.
Qed.

(** Running two tick lists one after the other. *)
Lemma exec_run_app ms dbg (a b : list Tick) (s : Store) :
  exec (run ms dbg (a ++ b)) s = exec (run ms dbg b) (exec (run ms dbg a) s).
Proof.
  revert s. induction a as [|t a IH]; intros s; [reflexivity|].
  cbn [app run]. unfold exec, bind in *. cbn [fst snd]. apply IH.
Qed.

Lemma output_run_app ms dbg (a b : list Tick) (s : Store) :
  output (run ms dbg (a ++ b)) s =
  output (run ms dbg a) s ++ output (run ms dbg b) (exec (run ms dbg a) s).
Proof.
  revert s. induction a as [|t a IH]; intros s; [reflexivity|].
  cbn [app run]. unfold exec, output, bind in *. cbn [fst snd].
  rewrite IH, app_assoc. reflexivity.
Qed.

Lemma swipes_app (a b : list Effect) : swipes (a ++ b) = swipes a ++ swipes b.
Proof.
  induction a as [|e a IH]; [reflexivity|].
  destruct e; cbn [app swipes]; rewrite IH; reflexivity.
Qed.

(** The timer callback: a reset while mounted, nothing after the cleanup. *)
Lemma cooldownTimeout_eq (s : Store) :
  cooldownTimeout s =
    if isMounted s
    then (tt, {| lastYRef := None; isCooldownRef := false; isMounted := true |}, [])
    else (tt, s, []).
Proof.
  unfold cooldownTimeout, bind, get, ret, setCooldown, setLastY.
  cbn [fst snd]. destruct s as [ly cool [|]]; reflexivity.
Qed.

(** ** Claims about the swipe debouncer *)

(** C1. On a processed frame with a hand in view, [cooling] false and a
    baseline [lastY] present, with [delta = currY - lastY]: if
    [delta < -0.08] exactly one NEXT is emitted and the cooldown is entered
    (flag set, timer scheduled); else if [delta > 0.08] exactly one PREV is
    emitted and the cooldown is entered; otherwise nothing is emitted and
    the cooldown is not entered. No step emits both events. *)
Theorem predictWebcam_threshold_branches ms dbg f s hand rest lastY :
  processed dbg f s = true ->
  landmarks f = hand :: rest ->
  isCooldownRef s = false ->
  lastYRef s = Some lastY ->
  let delta := (y (wrist hand) - lastY)%float in
  let out := output (predictWebcam ms dbg f) s in
  let s' := exec (predictWebcam ms dbg f) s in
  ((delta <? - (0.08))%float = true ->
     swipes out = [NEXT] /\ isCooldownRef s' = true /\ In (SetTimeout ms) out)
  /\ ((delta <? - (0.08))%float = false -> (0.08 <? delta)%float = true ->
     swipes out = [PREV] /\ isCooldownRef s' = true /\ In (SetTimeout ms) out)
  /\ ((delta <? - (0.08))%float = false -> (0.08 <? delta)%float = false ->
     swipes out = [] /\ isCooldownRef s' = false)
  /\ ~ (In NEXT (swipes out) /\ In PREV (swipes out)).
Proof.
  intros G Hl Hc Hy. cbv zeta. unfold output, exec.
  rewrite (predictWebcam_hand ms dbg f s hand rest G Hl), Hy, Hc.
  destruct (y (wrist hand) - lastY <? - (0.08))%float;
    [|destruct (0.08 <? y (wrist hand) - lastY)%float];
    cbn [fst snd swipes isCooldownRef In];
    repeat split; intros; try discriminate; try tauto;
    try intuition discriminate.
Qed.

Lemma predictWebcam_threshold_branches_witness :
  processed true (detected 0.3%float)
    {| lastYRef := Some 0.5%float; isCooldownRef := false; isMounted := true |} = true
  /\ swipes (output (predictWebcam 1000 true (detected 0.3%float))
       {| lastYRef := Some 0.5%float; isCooldownRef := false; isMounted := true |})
     = [NEXT].
Proof.
  split; [reflexivity|].
  apply (predictWebcam_threshold_branches 1000 true (detected 0.3%float)
           {| lastYRef := Some 0.5%float; isCooldownRef := false; isMounted := true |}
           (handAt 0.3%float) [] 0.5%float);
    reflexivity.
Defined.

(** C3. Whatever the frame, a step taken while [cooling] is true emits no
    swipe event. *)
Theorem predictWebcam_silent_while_cooling ms dbg f s :
  isCooldownRef s = true ->
  swipes (output (predictWebcam ms dbg f) s) = [].
Proof.
  intros Hc. destruct (processed dbg f s) eqn:G.
  - destruct (landmarks f) as [|hand rest] eqn:Hl; unfold output.
    + rewrite (predictWebcam_gap ms dbg f s G Hl). reflexivity.
    + rewrite (predictWebcam_hand ms dbg f s hand rest G Hl), Hc.
      destruct (lastYRef s); reflexivity.
  - apply predictWebcam_skipped, G.
Qed.

Lemma predictWebcam_silent_while_cooling_witness :
  isCooldownRef {| lastYRef := Some 0.5%float; isCooldownRef := true; isMounted := true |} = true
  /\ swipes (output (predictWebcam 1000 true (detected 0.125%float))
       {| lastYRef := Some 0.5%float; isCooldownRef := true; isMounted := true |}) = [].
Proof.
  split; [reflexivity|].
  apply (predictWebcam_silent_while_cooling 1000 true (detected 0.125%float)
           {| lastYRef := Some 0.5%float; isCooldownRef := true; isMounted := true |}).
  reflexivity.
Defined.

(** C4. The timer callback of a mounted controller sets [cooling] to false
    and [lastY] to absent; and whatever came before, the frame processed
    right after the callback emits no swipe event, whatever its wrist
    height: the timeout and that frame add nothing to the swipes of the
    trace. That frame only re-seeds the baseline: when it is processed with
    a hand in view, [lastY] becomes its wrist height, [cooling] stays false,
    and its only effect is the request for the next frame. *)
Theorem cooldown_expiry_reseeds ms dbg :
  (forall s, isMounted s = true ->
     lastYRef (exec cooldownTimeout s) = None
     /\ isCooldownRef (exec cooldownTimeout s) = false)
  /\ (forall s f,
     swipes (output (predictWebcam ms dbg f) (exec cooldownTimeout s)) = [])
  /\ (forall pre s f,
     swipes (output (run ms dbg (pre ++ [TimerFired; AnimationFrame f])) s)
     = swipes (output (run ms dbg pre) s))
  /\ (forall s f hand rest,
     processed dbg f (exec cooldownTimeout s) = true ->
     landmarks f = hand :: rest ->
     lastYRef (exec (predictWebcam ms dbg f) (exec cooldownTimeout s))
     = Some (y (wrist hand))
     /\ isCooldownRef (exec (predictWebcam ms dbg f) (exec cooldownTimeout s)) = false
     /\ output (predictWebcam ms dbg f) (exec cooldownTimeout s)
        = [RequestAnimationFrame])
  /\ (forall pre s f hand rest,
     processed dbg f (exec (run ms dbg (pre ++ [TimerFired])) s) = true ->
     landmarks f = hand :: rest ->
     lastYRef (exec (run ms dbg (pre ++ [TimerFired; AnimationFrame f])) s)
     = Some (y (wrist hand))
     /\ isCooldownRef (exec (run ms dbg (pre ++ [TimerFired; AnimationFrame f])) s)
        = false).
Proof.
  assert (Step : forall s f,
    swipes (output (predictWebcam ms dbg f) (exec cooldownTimeout s)) = []).
  { intros s f. unfold exec at 1. rewrite cooldownTimeout_eq.
    destruct (isMounted s) eqn:Hm; cbn [fst snd].
    - destruct (processed dbg f
        {| lastYRef := None; isCooldownRef := false; isMounted := true |}) eqn:G.
      + destruct (landmarks f) as [|hand rest] eqn:Hl; unfold output.
        * rewrite (predictWebcam_gap ms dbg f _ G Hl). reflexivity.
        * rewrite (predictWebcam_hand ms dbg f _ hand rest G Hl). reflexivity.
      + apply predictWebcam_skipped, G.
    - apply predictWebcam_skipped. unfold processed. rewrite Hm. reflexivity. }
  assert (Seed : forall s f hand rest,
    processed dbg f (exec cooldownTimeout s) = true ->
    landmarks f = hand :: rest ->
    lastYRef (exec (predictWebcam ms dbg f) (exec cooldownTimeout s))
    = Some (y (wrist hand))
    /\ isCooldownRef (exec (predictWebcam ms dbg f) (exec cooldownTimeout s)) = false
    /\ output (predictWebcam ms dbg f) (exec cooldownTimeout s)
       = [RequestAnimationFrame]).
  { intros s f hand rest G Hl.
    assert (Hs : exec cooldownTimeout s
                 = {| lastYRef := None; isCooldownRef := false; isMounted := true |}).
    { unfold exec in *. rewrite cooldownTimeout_eq in *.
      destruct (isMounted s) eqn:Hm; cbn [fst snd] in *; [reflexivity|].
      unfold processed in G. rewrite Hm in G. discriminate G. }
    rewrite Hs in *. unfold exec, output.
    rewrite (predictWebcam_hand ms dbg f _ hand rest G Hl). repeat split. }
  split; [|split; [|split; [|split]]].
  - intros s Hm. unfold exec. rewrite cooldownTimeout_eq, Hm. split; reflexivity.
  - exact Step.
  - intros pre s f. rewrite output_run_app, swipes_app.
    set (s1 := exec (run ms dbg pre) s).
    assert (E : swipes (output (run ms dbg [TimerFired; AnimationFrame f]) s1) = []).
    { specialize (Step s1 f). cbn [run tick].
      unfold output, exec, bind, ret in *. cbn [fst snd].
      rewrite swipes_app, swipes_app.
      rewrite cooldownTimeout_eq in *.
      destruct (isMounted s1); cbn [fst snd swipes app] in *;
        rewrite Step; reflexivity. }
    rewrite E. apply app_nil_r.
  - exact Seed.
  - intros pre s f hand rest G Hl.
    rewrite exec_run_app in G. rewrite exec_run_app.
    change (exec (run ms dbg [TimerFired]) ?t) with (exec cooldownTimeout t) in G.
    change (exec (run ms dbg [TimerFired; AnimationFrame f]) ?t)
      with (exec (predictWebcam ms dbg f) (exec cooldownTimeout t)).
    destruct (Seed _ f hand rest G Hl) as [A [B _]]. split; assumption.
Qed.

Lemma cooldown_expiry_reseeds_witness :
  isMounted {| lastYRef := Some 0.5%float; isCooldownRef := true; isMounted := true |} = true
  /\ processed true (detected 0.25%float)
       (exec cooldownTimeout
          {| lastYRef := Some 0.5%float; isCooldownRef := true; isMounted := true |}) = true
  /\ landmarks (detected 0.25%float) = [handAt 0.25%float]
  /\ lastYRef (exec cooldownTimeout
       {| lastYRef := Some 0.5%float; isCooldownRef := true; isMounted := true |}) = None
  /\ isCooldownRef (exec cooldownTimeout
       {| lastYRef := Some 0.5%float; isCooldownRef := true; isMounted := true |}) = false
  /\ lastYRef (exec (predictWebcam 1000 true (detected 0.25%float))
       (exec cooldownTimeout
          {| lastYRef := Some 0.5%float; isCooldownRef := true; isMounted := true |}))
     = Some 0.25%float
  /\ output (predictWebcam 1000 true (detected 0.25%float))
       (exec cooldownTimeout
          {| lastYRef := Some 0.5%float; isCooldownRef := true; isMounted := true |})
     = [RequestAnimationFrame].
Proof.
  split; [reflexivity|]. split; [reflexivity|]. split; [reflexivity|].
  destruct (cooldown_expiry_reseeds 1000 true) as [Reset [_ [_ [Seed _]]]].
  destruct (Reset {| lastYRef := Some 0.5%float; isCooldownRef := true; isMounted := true |}
              eq_refl) as [R1 R2].
  destruct (Seed {| lastYRef := Some 0.5%float; isCooldownRef := true; isMounted := true |}
              (detected 0.25%float) (handAt 0.25%float) [] eq_refl eq_refl)
    as [S1 [_ S3]].
  split; [exact R1|]. split; [exact R2|]. split; [exact S1|exact S3].
Defined.

(** C6, as the specification states it, fails: a gap seen during a cooldown
    leaves the cooling flag set. *)
Lemma gap_during_cooldown_keeps_flag :
  let s := {| lastYRef := Some 0.5%float; isCooldownRef := true; isMounted := true |} in
  let s' := exec (predictWebcam 1000 true noHand) s in
  processed true noHand s = true
  /\ landmarks noHand = []
  /\ ~ (lastYRef s' = None /\ isCooldownRef s' = false).
Proof.
  cbv zeta. split; [reflexivity|]. split; [reflexivity|].
  intros [_ H]. vm_compute in H. discriminate H.
Qed.

(** C6, amended. On a processed frame with no hand in view, [lastY] is
    reset to absent, the cooling flag keeps its value, and no swipe event is
    emitted. *)
Theorem predictWebcam_gap_resets_baseline ms dbg f s :
  processed dbg f s = true ->
  landmarks f = [] ->
  lastYRef (exec (predictWebcam ms dbg f) s) = None
  /\ isCooldownRef (exec (predictWebcam ms dbg f) s) = isCooldownRef s
  /\ swipes (output (predictWebcam ms dbg f) s) = [].
Proof.
  intros G Hl. unfold exec, output.
  rewrite (predictWebcam_gap ms dbg f s G Hl). repeat split.
Qed.

Lemma predictWebcam_gap_resets_baseline_witness :
  processed true noHand
    {| lastYRef := Some 0.5%float; isCooldownRef := true; isMounted := true |} = true
  /\ landmarks noHand = []
  /\ isCooldownRef (exec (predictWebcam 1200 true noHand)
       {| lastYRef := Some 0.5%float; isCooldownRef := true; isMounted := true |}) = true.
Proof.
  split; [reflexivity|]. split; [reflexivity|].
  apply (predictWebcam_gap_resets_baseline 1200 true noHand
           {| lastYRef := Some 0.5%float; isCooldownRef := true; isMounted := true |});
    reflexivity.
Defined.




(** C8, as the specification states it, fails: the code takes no threshold.
    With the threshold of the specification's rule set to 0.5, a move of
    -0.2 must give nothing, and the code emits NEXT. *)
Lemma threshold_is_not_configurable :
  let s := {| lastYRef := Some 0.5%float; isCooldownRef := false; isMounted := true |} in
  processed true (detected 0.3%float) s = true
  /\ spec_decide 0.5%float (0.3 - 0.5)%float = []
  /\ swipes (output (App.predictWebcam (detected 0.3%float)) s) = [NEXT]
  /\ swipes (output (TikTokApp.predictWebcam (detected 0.3%float)) s)
     <> spec_decide 0.5%float (0.3 - 0.5)%float.
Proof.
  cbv zeta. repeat split; try (vm_compute; reflexivity).
  vm_compute. discriminate.
Qed.

(** C8, amended. The threshold is the constant 0.08 written in
    [predictWebcam]: on a processed frame with a hand in view, no cooldown
    and a baseline present, the events emitted are those of the
    specification's rule at THRESHOLD = 0.08, in both applications. *)
Theorem predictWebcam_threshold_fixed ms dbg f s hand rest lastY :
  processed dbg f s = true ->
  landmarks f = hand :: rest ->
  isCooldownRef s = false ->
  lastYRef s = Some lastY ->
  swipes (output (predictWebcam ms dbg f) s)
  = spec_decide 0.08%float (y (wrist hand) - lastY)%float.
Proof.
  intros G Hl Hc Hy. unfold output, spec_decide.
  rewrite (predictWebcam_hand ms dbg f s hand rest G Hl), Hy, Hc.
  destruct (y (wrist hand) - lastY <? - (0.08))%float; [reflexivity|].
  destruct (0.08 <? y (wrist hand) - lastY)%float; reflexivity.
Qed.

Lemma predictWebcam_threshold_fixed_witness :
  processed true (detected 0.75%float)
    {| lastYRef := Some 0.5%float; isCooldownRef := false; isMounted := true |} = true
  /\ swipes (output (predictWebcam 1200 true (detected 0.75%float))
       {| lastYRef := Some 0.5%float; isCooldownRef := false; isMounted := true |})
     = spec_decide 0.08%float (0.75 - 0.5)%float.
Proof.
  split; [reflexivity|].
  apply (predictWebcam_threshold_fixed 1200 true (detected 0.75%float)
           {| lastYRef := Some 0.5%float; isCooldownRef := false; isMounted := true |}
           (handAt 0.75%float) [] 0.5%float);
    reflexivity.
Defined.

(** With [debugMode] false, the first frame of a list changes neither the
    store nor the swipes of the run. *)
Lemma run_frames_skipped ms f (frames : list Frame) (s : Store) :
  exec (run ms false (map AnimationFrame (f :: frames))) s
  = exec (run ms false (map AnimationFrame frames)) s
  /\ swipes (output (run ms false (map AnimationFrame (f :: frames))) s)
     = swipes (output (run ms false (map AnimationFrame frames)) s).
Proof.
  assert (G : processed false f s = false).
  { unfold processed. rewrite !andb_false_r. reflexivity. }
  destruct (predictWebcam_skipped ms false f s G) as [E O].
  cbn [map run tick]. unfold exec, output, bind in *. cbn [fst snd].
  rewrite E, swipes_app, O. split; reflexivity.
Qed.

(** C9. The gesture block runs only behind [ctx && debugMode]: a frame that
    changes the store or emits a swipe was run with [debugMode] truthy and a
    2D context at hand; and with [debugMode] false, no sequence of frames
    changes [lastY] (or anything else in the store) or emits a swipe. *)
Theorem gesture_processing_needs_debugMode ms dbg :
  (forall f s,
     exec (predictWebcam ms dbg f) s <> s
     \/ swipes (output (predictWebcam ms dbg f) s) <> [] ->
     dbg = true /\ ctx f = true)
  /\ (forall frames s, dbg = false ->
     exec (run ms dbg (map AnimationFrame frames)) s = s
     /\ swipes (output (run ms dbg (map AnimationFrame frames)) s) = []).
Proof.
  split.
  - intros f s H.
    destruct (processed dbg f s) eqn:G.
    + unfold processed in G. split_guards G. split; assumption.
    + destruct (predictWebcam_skipped ms dbg f s G) as [E O].
      destruct H as [H|H]; contradiction.
  - intros frames s ->. induction frames as [|f frames IH].
    + split; reflexivity.
    + destruct (run_frames_skipped ms f frames s) as [E O].
      rewrite E, O. exact IH.
Qed.

Lemma gesture_processing_needs_debugMode_witness :
  swipes (output (run 1000 false
    (map AnimationFrame [detected 0.5%float; detected 0.25%float; noHand;
                         detected 0.75%float])) initialStore) = []
  /\ lastYRef (exec (run 1000 false
    (map AnimationFrame [detected 0.5%float; detected 0.25%float; noHand;
                         detected 0.75%float])) initialStore) = None.
Proof.
  destruct (proj2 (gesture_processing_needs_debugMode 1000 false)
              [detected 0.5%float; detected 0.25%float; noHand; detected 0.75%float]
              initialStore eq_refl) as [E O].
  split; [exact O|]. rewrite E. reflexivity.
Defined.

(** ** Claims about the feed controller *)

Lemma panelCount_eq (v : Variant) : panelCount v = 4.
Proof. destruct v; reflexivity. Qed.

(** The new index, by direction. *)
Lemma handleSwipe_index v p d i :
  fst (handleSwipe v p d i) =
    match d with
    | NEXT => if i <? panelCount v - 1 then i + 1 else i
    | PREV => if i >? 0 then i - 1 else i
    end.
Proof.
  destruct v, d; unfold handleSwipe, App.handleSwipe, TikTokApp.handleSwipe,
    panelCount; cbn [fst SwipeEvent_eqb andb]; reflexivity.
Qed.

(** The scroll requests, from the new index. *)
Lemma handleSwipe_requests v p d i :
  snd (handleSwipe v p d i) =
    let newIndex := fst (handleSwipe v p d i) in
    if newIndex =? i then []
    else if containerRef p
         then [ {| top := newIndex * innerHeight p; behavior := "smooth" |} ]
         else [].
Proof.
  cbv zeta.
  destruct v; unfold handleSwipe, App.handleSwipe, TikTokApp.handleSwipe;
    cbn [fst snd];
    match goal with |- context [negb (?a =? i)] => destruct (a =? i) end;
    reflexivity.
Qed.

(** C2. The index is 0 at startup, which is within range, and [handleSwipe]
    keeps [0 <= activeIndex < panelCount]: from any index in range, NEXT and
    PREV give an index in range, and so does any sequence of swipes from
    the start. *)
Theorem handleSwipe_keeps_invariant v :
  initialActiveIndex v = 0
  /\ FeedInvariant v (initialActiveIndex v)
  /\ (forall p d i, FeedInvariant v i -> FeedInvariant v (fst (handleSwipe v p d i)))
  /\ (forall p ds, FeedInvariant v (swipeAll v p ds (initialActiveIndex v))).
Proof.
  assert (Init : FeedInvariant v (initialActiveIndex v)).
  { unfold FeedInvariant. rewrite panelCount_eq. destruct v; cbv; split; congruence. }
  assert (Step : forall p d i, FeedInvariant v i ->
            FeedInvariant v (fst (handleSwipe v p d i))).
  { intros p d i. unfold FeedInvariant. rewrite handleSwipe_index.
    destruct d.
    - destruct (Z.ltb_spec i (panelCount v - 1)); lia.
    - rewrite Z.gtb_ltb. destruct (Z.ltb_spec 0 i); lia. }
  split; [destruct v; reflexivity|].
  split; [exact Init|].
  split; [exact Step|].
  intros p ds. revert Init. generalize (initialActiveIndex v).
  induction ds as [|d ds IH]; intros i Hi; cbn [swipeAll]; [exact Hi|].
  apply IH, Step, Hi.
Qed.

Lemma handleSwipe_keeps_invariant_witness :
  FeedInvariant ColorPanels 3
  /\ FeedInvariant ColorPanels
       (fst (handleSwipe ColorPanels {| containerRef := true; innerHeight := 800 |} NEXT 3)).
Proof.
  assert (H : FeedInvariant ColorPanels 3) by (cbv; split; congruence).
  split; [exact H|].
  apply (proj1 (proj2 (proj2 (handleSwipe_keeps_invariant ColorPanels)))
           {| containerRef := true; innerHeight := 800 |} NEXT 3 H).
Defined.

(** C5. NEXT increments the index exactly when [activeIndex < panelCount - 1]
    and PREV decrements it exactly when [activeIndex > 0]; otherwise the
    index is unchanged. When the index changes, one scroll request to
    [newIndex * innerHeight] is issued on the mounted container; when it
    does not change, no request is issued. *)
Theorem handleSwipe_moves_within_bounds v p i :
  (fst (handleSwipe v p NEXT i) = i + 1 <-> i < panelCount v - 1)
  /\ (fst (handleSwipe v p NEXT i) = i + 1 \/ fst (handleSwipe v p NEXT i) = i)
  /\ (fst (handleSwipe v p PREV i) = i - 1 <-> i > 0)
  /\ (fst (handleSwipe v p PREV i) = i - 1 \/ fst (handleSwipe v p PREV i) = i)
  /\ (forall d, fst (handleSwipe v p d i) <> i -> containerRef p = true ->
        snd (handleSwipe v p d i)
        = [ {| top := fst (handleSwipe v p d i) * innerHeight p;
               behavior := "smooth" |} ])
  /\ (forall d, fst (handleSwipe v p d i) = i -> snd (handleSwipe v p d i) = []).
Proof.
  rewrite !handleSwipe_index, Z.gtb_ltb.
  destruct (Z.ltb_spec i (panelCount v - 1)), (Z.ltb_spec 0 i);
    (split; [lia|]); (split; [lia|]); (split; [lia|]); (split; [lia|]);
    (split; intros d Hd; [intros Hc|]; rewrite handleSwipe_requests; cbv zeta;
       [apply Z.eqb_neq in Hd; rewrite Hd, Hc; reflexivity
       |apply Z.eqb_eq in Hd; rewrite Hd; reflexivity]).
Qed.

Lemma handleSwipe_moves_within_bounds_witness :
  fst (handleSwipe VideoFeed {| containerRef := true; innerHeight := 800 |} NEXT 1) <> 1
  /\ containerRef {| containerRef := true; innerHeight := 800 |} = true
  /\ snd (handleSwipe VideoFeed {| containerRef := true; innerHeight := 800 |} NEXT 1)
     = [ {| top := 1600; behavior := "smooth" |} ].
Proof.
  assert (H : fst (handleSwipe VideoFeed
                {| containerRef := true; innerHeight := 800 |} NEXT 1) <> 1)
    by (vm_compute; discriminate).
  split; [exact H|]. split; [reflexivity|].
  exact (proj1 (proj2 (proj2 (proj2 (proj2
    (handleSwipe_moves_within_bounds VideoFeed
       {| containerRef := true; innerHeight := 800 |} 1)))))
    NEXT H eq_refl).
Defined.

(** C10. Both applications have four panels, and their [handleSwipe]
    agree on every page, direction and previous index: same new index,
    same scroll requests. *)
Theorem handleSwipe_variants_agree :
  List.length App.COLORS = 4%nat
  /\ List.length TikTokApp.VIDEOS = 4%nat
  /\ (forall p d i, App.handleSwipe p d i = TikTokApp.handleSwipe p d i)
  /\ (forall p d i, handleSwipe ColorPanels p d i = handleSwipe VideoFeed p d i).
Proof.
  assert (E : forall p d i, App.handleSwipe p d i = TikTokApp.handleSwipe p d i).
  { intros p d i. unfold App.handleSwipe, TikTokApp.handleSwipe.
    change (Z.of_nat (List.length App.COLORS)) with 4.
    change (Z.of_nat (List.length TikTokApp.VIDEOS)) with 4.
    reflexivity. }
  split; [reflexivity|]. split; [reflexivity|]. split; [exact E|].
  intros p d i. apply E.
Qed.

(** The last scenario of the specification: four panels, index 3, NEXT. *)
Example scenario_last_panel :
  handleSwipe ColorPanels {| containerRef := true; innerHeight := 800 |} NEXT 3 = (3, [])
  /\ handleSwipe VideoFeed {| containerRef := true; innerHeight := 800 |} PREV 0 = (0, [])
  /\ handleSwipe VideoFeed {| containerRef := true; innerHeight := 800 |} PREV 3
     = (2, [ {| top := 1600; behavior := "smooth" |} ]).
Proof. repeat split. Qed.

(** * Further properties of the code *)

(** ** The controller over whole traces *)

(** Every outcome of one [predictWebcam]: the frame is stopped by a guard,
    or it passes without a swipe, or it emits one swipe and locks. The
    cooling flag is never cleared and [isMounted] never written. *)
Lemma predictWebcam_shape ms dbg f s :
  isMounted (exec (predictWebcam ms dbg f) s) = isMounted s
  /\ ((exec (predictWebcam ms dbg f) s = s
       /\ (output (predictWebcam ms dbg f) s = []
           \/ output (predictWebcam ms dbg f) s = [RequestAnimationFrame]))
      \/ (isCooldownRef (exec (predictWebcam ms dbg f) s) = isCooldownRef s
          /\ output (predictWebcam ms dbg f) s = [RequestAnimationFrame])
      \/ (isCooldownRef s = false
          /\ isCooldownRef (exec (predictWebcam ms dbg f) s) = true
          /\ exists d, output (predictWebcam ms dbg f) s
                       = [OnSwipe d; SetTimeout ms; RequestAnimationFrame])).
Proof.
  destruct (processed dbg f s) eqn:G.
  - destruct (landmarks f) as [|hand rest] eqn:Hl; unfold exec, output.
    + rewrite (predictWebcam_gap ms dbg f s G Hl). cbn [fst snd isMounted isCooldownRef].
      split; [reflexivity|]. right; left. split; reflexivity.
    + rewrite (predictWebcam_hand ms dbg f s hand rest G Hl).
      destruct (lastYRef s) as [lastY|].
      * destruct (isCooldownRef s) eqn:Hc; cbn [fst snd isMounted isCooldownRef].
        { split; [reflexivity|]. right; left. split; reflexivity. }
        destruct (y (wrist hand) - lastY <? - (0.08))%float;
          [|destruct (0.08 <? y (wrist hand) - lastY)%float];
          cbn [fst snd isMounted isCooldownRef]; (split; [reflexivity|]).
        { right; right. repeat split. now exists NEXT. }
        { right; right. repeat split. now exists PREV. }
        { right; left. split; reflexivity. }
      * cbn [fst snd isMounted isCooldownRef].
        split; [reflexivity|]. right; left. split; reflexivity.
  - destruct (predictWebcam_skipped ms dbg f s G) as [E _].
    split; [rewrite E; reflexivity|]. left. split; [exact E|].
    unfold processed in G.
    unfold output, predictWebcam, when, bind, get, call, ret. cbn [fst snd].
    destruct (isMounted s); cbn [negb andb] in *; [|now left].
    destruct (gestureRecognizer f), (videoRef f), (canvasRef f);
      cbn [andb] in *; try now left.
    destruct (0 <? videoWidth f); cbn [andb fst snd app] in *; [|now right].
    destruct (ctx f); cbn [andb fst snd app] in *; [|now right].
    rewrite G. cbn [fst snd app]. now right.
Qed.

Lemma timers_app (a b : list Effect) : timers (a ++ b) = timers a ++ timers b.
Proof.
  induction a as [|e a IH]; [reflexivity|].
  destruct e; cbn [app timers]; rewrite IH; reflexivity.
Qed.

Lemma run_cons ms dbg t ts s :
  exec (run ms dbg (t :: ts)) s = exec (run ms dbg ts) (exec (tick ms dbg t) s)
  /\ output (run ms dbg (t :: ts)) s
     = output (tick ms dbg t) s ++ output (run ms dbg ts) (exec (tick ms dbg t) s).
Proof. split; reflexivity. Qed.

(** One tick that is not the timer: a locked store stays locked and silent. *)
Lemma tick_locked ms dbg t s :
  timerFree [t] = true ->
  isCooldownRef s = true ->
  isCooldownRef (exec (tick ms dbg t) s) = true
  /\ swipes (output (tick ms dbg t) s) = [].
Proof.
  intros Ht Hc. destruct t as [f| |]; [|discriminate Ht|].
  - cbn [tick].
    destruct (predictWebcam_shape ms dbg f s) as [_ [[E O]|[[E O]|[E _]]]].
    + rewrite E. split; [exact Hc|]. destruct O as [-> | ->]; reflexivity.
    + rewrite E, O. split; [exact Hc|reflexivity].
    + congruence.
  - cbn [tick]. unfold cleanup, setMounted, exec, output. cbn [fst snd isCooldownRef].
    split; [exact Hc|reflexivity].
Qed.

Lemma run_locked ms dbg ts : forall s,
  timerFree ts = true ->
  isCooldownRef s = true ->
  isCooldownRef (exec (run ms dbg ts) s) = true
  /\ swipes (output (run ms dbg ts) s) = [].
Proof.
  induction ts as [|t ts IH]; intros s Ht Hc.
  - split; [exact Hc|reflexivity].
  - cbn [timerFree forallb] in Ht. apply andb_prop in Ht. destruct Ht as [Ht Hts].
    destruct (run_cons ms dbg t ts s) as [E O]. rewrite E, O, swipes_app.
    destruct (tick_locked ms dbg t s) as [Hc' Hs'];
      [cbn [timerFree forallb]; rewrite Ht; reflexivity|exact Hc|].
    destruct (IH (exec (tick ms dbg t) s) Hts Hc') as [Hc'' Hs''].
    rewrite Hs', Hs''. split; [exact Hc''|reflexivity].
Qed.

Lemma run_at_most_one_swipe ms dbg ts : forall s,
  timerFree ts = true ->
  (List.length (swipes (output (run ms dbg ts) s)) <= 1)%nat.
Proof.
  induction ts as [|t ts IH]; intros s Ht; [cbn; lia|].
  cbn [timerFree forallb] in Ht. apply andb_prop in Ht. destruct Ht as [Ht Hts].
  destruct (run_cons ms dbg t ts s) as [_ O]. rewrite O, swipes_app, length_app.
  destruct t as [f| |]; [|discriminate Ht|].
  - cbn [tick].
    destruct (predictWebcam_shape ms dbg f s) as [_ [[E Of]|[[E Of]|[_ [E [d Of]]]]]].
    + destruct Of as [-> | ->]; cbn [swipes List.length]; apply (IH _ Hts).
    + rewrite Of. cbn [swipes List.length]. apply (IH _ Hts).
    + rewrite Of. cbn [swipes List.length].
      destruct (run_locked ms dbg ts _ Hts E) as [_ Hs]. rewrite Hs. cbn. lia.
  - cbn [tick]. unfold cleanup, setMounted, output at 1. cbn [fst snd swipes List.length].
    apply (IH _ Hts).
Qed.

(** X1. Debounce: as long as the cooldown timer has not fired, a run of
    frames (and cleanups) emits at most one swipe, whatever the frames hold
    and whatever the store was; and from a locked store it emits none and
    stays locked. *)
Theorem one_swipe_per_cooldown ms dbg ts s :
  timerFree ts = true ->
  (List.length (swipes (output (run ms dbg ts) s)) <= 1)%nat
  /\ (isCooldownRef s = true ->
      swipes (output (run ms dbg ts) s) = []
      /\ isCooldownRef (exec (run ms dbg ts) s) = true).
Proof.
  intros Ht. split; [apply run_at_most_one_swipe, Ht|].
  intros Hc. destruct (run_locked ms dbg ts s Ht Hc) as [A B]. split; assumption.
Qed.

Lemma one_swipe_per_cooldown_witness :
  timerFree [AnimationFrame (detected 0.5%float); AnimationFrame (detected 0.25%float);
             AnimationFrame (detected 0.75%float)] = true
  /\ (List.length (swipes (output (run 1000 true
        [AnimationFrame (detected 0.5%float); AnimationFrame (detected 0.25%float);
         AnimationFrame (detected 0.75%float)]) initialStore)) <= 1)%nat.
Proof.
  split; [reflexivity|].
  apply (one_swipe_per_cooldown 1000 true
           [AnimationFrame (detected 0.5%float); AnimationFrame (detected 0.25%float);
            AnimationFrame (detected 0.75%float)] initialStore).
  reflexivity.
Defined.

Lemma tick_timers ms dbg t s :
  timers (output (tick ms dbg t) s)
  = repeat ms (List.length (swipes (output (tick ms dbg t) s))).
Proof.
  destruct t as [f| |]; cbn [tick].
  - destruct (predictWebcam_shape ms dbg f s) as [_ [[_ O]|[[_ O]|[_ [_ [d O]]]]]].
    + destruct O as [-> | ->]; reflexivity.
    + rewrite O; reflexivity.
    + rewrite O; reflexivity.
  - unfold output. rewrite cooldownTimeout_eq. destruct (isMounted s); reflexivity.
  - reflexivity.
Qed.

(** X2. Every swipe comes with its cooldown timer and no timer is set
    without a swipe: over any trace, the delays passed to [setTimeout] are
    one copy of the cooldown delay per swipe emitted. *)
Theorem one_timer_per_swipe ms dbg ts s :
  timers (output (run ms dbg ts) s)
  = repeat ms (List.length (swipes (output (run ms dbg ts) s))).
Proof.
  revert s. induction ts as [|t ts IH]; intros s; [reflexivity|].
  destruct (run_cons ms dbg t ts s) as [_ O].
  rewrite O, timers_app, swipes_app, length_app, repeat_app, IH, tick_timers.
  reflexivity.
Qed.

(** An unmounted controller ignores every tick. *)
Lemma tick_unmounted ms dbg t s :
  isMounted s = false ->
  exec (tick ms dbg t) s = s /\ output (tick ms dbg t) s = [].
Proof.
  intros Hm. destruct t as [f| |]; cbn [tick].
  - unfold exec, output, predictWebcam, bind, get, ret. cbn [fst snd].
    rewrite Hm. split; reflexivity.
  - unfold exec, output. rewrite cooldownTimeout_eq, Hm. split; reflexivity.
  - destruct s as [ly cool mnt]. cbn [isMounted] in Hm. subst mnt.
    split; reflexivity.
Qed.

Lemma run_unmounted ms dbg ts s :
  isMounted s = false ->
  exec (run ms dbg ts) s = s /\ output (run ms dbg ts) s = [].
Proof.
  intros Hm. induction ts as [|t ts [IHe IHo]]; [split; reflexivity|].
  destruct (run_cons ms dbg t ts s) as [E O].
  destruct (tick_unmounted ms dbg t s Hm) as [Et Ot].
  rewrite E, O, Et, Ot, IHe, IHo. split; reflexivity.
Qed.

(** X3. After the effect cleanup the controller is inert: whatever ticks
    follow (frames, timers firing, further cleanups), the refs keep the
    values they had, and nothing is emitted, scheduled or requested. *)
Theorem cleanup_makes_controller_inert ms dbg ts s :
  exec (run ms dbg (Cleanup :: ts)) s = exec cleanup s
  /\ output (run ms dbg (Cleanup :: ts)) s = []
  /\ lastYRef (exec (run ms dbg (Cleanup :: ts)) s) = lastYRef s
  /\ isCooldownRef (exec (run ms dbg (Cleanup :: ts)) s) = isCooldownRef s
  /\ isMounted (exec (run ms dbg (Cleanup :: ts)) s) = false.
Proof.
  destruct (run_cons ms dbg Cleanup ts s) as [E O].
  destruct (run_unmounted ms dbg ts (exec cleanup s) eq_refl) as [Er Or].
  cbn [tick] in E, O. rewrite E, O, Er, Or.
  repeat split.
Qed.

(** X4. The animation loop goes on exactly when the controller is mounted
    and the recogniser, the video and the canvas are all at hand: then one
    next frame is requested, whatever [debugMode], the video width and the
    landmarks are; otherwise the frame does nothing at all and requests no
    next frame. *)
Theorem predictWebcam_reschedules ms dbg f s :
  (isMounted s && gestureRecognizer f && videoRef f && canvasRef f = true ->
     frameRequests (output (predictWebcam ms dbg f) s) = 1%nat
     /\ exists pre, output (predictWebcam ms dbg f) s = pre ++ [RequestAnimationFrame])
  /\ (isMounted s && gestureRecognizer f && videoRef f && canvasRef f = false ->
     predictWebcam ms dbg f s = (tt, s, [])).
Proof.
  split; intros G.
  - split_guards G.
    destruct (processed dbg f s) eqn:P.
    + destruct (landmarks f) as [|hand rest] eqn:Hl; unfold output.
      * rewrite (predictWebcam_gap ms dbg f s P Hl). split; [reflexivity|now exists []].
      * rewrite (predictWebcam_hand ms dbg f s hand rest P Hl).
        destruct (lastYRef s) as [lastY|];
          [destruct (isCooldownRef s);
             [|destruct (y (wrist hand) - lastY <? - (0.08))%float;
               [|destruct (0.08 <? y (wrist hand) - lastY)%float]]|];
          cbn [snd frameRequests]; (split; [reflexivity|]);
          first [now exists [] | now eexists [_; _]].
    + unfold processed in P. rewrite G, G0, G1, G2 in P. cbn [andb] in P.
      unfold output, predictWebcam, when, bind, get, call, ret. cbn [fst snd].
      rewrite G, G0, G1, G2. cbn [negb andb].
      destruct (0 <? videoWidth f); cbn [andb fst snd app] in *;
        [|split; [reflexivity|now exists []]].
      rewrite P. cbn [fst snd app]. split; [reflexivity|now exists []].
  - unfold predictWebcam, when, bind, get, call, ret. cbn [fst snd].
    destruct (isMounted s); cbn [negb andb] in *; [|reflexivity].
    rewrite G. reflexivity.
Qed.

Lemma predictWebcam_reschedules_witness :
  isMounted initialStore && gestureRecognizer noHand && videoRef noHand
    && canvasRef noHand = true
  /\ frameRequests (output (predictWebcam 1000 false noHand) initialStore) = 1%nat.
Proof.
  split; [reflexivity|].
  apply (proj1 (predictWebcam_reschedules 1000 false noHand initialStore) eq_refl).
Defined.

(** ** The debouncer at its edges *)

(** Without a baseline no comparison is made. *)
Lemma no_baseline_silent ms dbg f s :
  lastYRef s = None ->
  swipes (output (predictWebcam ms dbg f) s) = []
  /\ isCooldownRef (exec (predictWebcam ms dbg f) s) = isCooldownRef s.
Proof.
  intros Hy. destruct (processed dbg f s) eqn:G.
  - destruct (landmarks f) as [|hand rest] eqn:Hl; unfold output, exec.
    + rewrite (predictWebcam_gap ms dbg f s G Hl). split; reflexivity.
    + rewrite (predictWebcam_hand ms dbg f s hand rest G Hl), Hy. split; reflexivity.
  - destruct (predictWebcam_skipped ms dbg f s G) as [E O].
    rewrite E, O. split; reflexivity.
Qed.

(** X5. A frame met without a baseline (the first one, or the first after a
    reset) never emits and never locks, whatever it holds; when it is
    processed with a hand in view it only seeds the baseline with the wrist
    height. *)
Theorem first_sample_only_seeds ms dbg f s :
  lastYRef s = None ->
  swipes (output (predictWebcam ms dbg f) s) = []
  /\ timers (output (predictWebcam ms dbg f) s) = []
  /\ isCooldownRef (exec (predictWebcam ms dbg f) s) = isCooldownRef s
  /\ (forall hand rest, processed dbg f s = true -> landmarks f = hand :: rest ->
        lastYRef (exec (predictWebcam ms dbg f) s) = Some (y (wrist hand))).
Proof.
  intros Hy. destruct (no_baseline_silent ms dbg f s Hy) as [O C].
  split; [exact O|]. split; [|split; [exact C|]].
  - change (predictWebcam ms dbg f) with (tick ms dbg (AnimationFrame f)).
    rewrite tick_timers. cbn [tick]. rewrite O. reflexivity.
  - intros hand rest G Hl. unfold exec.
    rewrite (predictWebcam_hand ms dbg f s hand rest G Hl), Hy. reflexivity.
Qed.

Lemma first_sample_only_seeds_witness :
  lastYRef initialStore = None
  /\ swipes (output (predictWebcam 1000 true (detected 0.125%float)) initialStore) = []
  /\ lastYRef (exec (predictWebcam 1000 true (detected 0.125%float)) initialStore)
     = Some 0.125%float.
Proof.
  split; [reflexivity|].
  destruct (first_sample_only_seeds 1000 true (detected 0.125%float) initialStore eq_refl)
    as [O [_ [_ L]]].
  split; [exact O|].
  exact (L (handAt 0.125%float) [] eq_refl eq_refl).
Defined.

(** X6. A detection gap cuts the comparison: the frame that follows a
    processed frame without a hand never emits, however far the wrist has
    moved since the last detection. *)
Theorem frame_after_gap_is_silent ms dbg f g s :
  processed dbg f s = true ->
  landmarks f = [] ->
  swipes (output (run ms dbg [AnimationFrame f; AnimationFrame g]) s) = []
  /\ isCooldownRef (exec (run ms dbg [AnimationFrame f; AnimationFrame g]) s)
     = isCooldownRef s.
Proof.
  intros G Hl.
  destruct (run_cons ms dbg (AnimationFrame f) [AnimationFrame g] s) as [E O].
  destruct (run_cons ms dbg (AnimationFrame g) [] (exec (predictWebcam ms dbg f) s))
    as [E' O'].
  cbn [tick] in *. rewrite E, O, E', O', !swipes_app.
  assert (Hs : exec (predictWebcam ms dbg f) s
               = {| lastYRef := None; isCooldownRef := isCooldownRef s;
                    isMounted := isMounted s |}).
  { unfold exec. rewrite (predictWebcam_gap ms dbg f s G Hl). reflexivity. }
  assert (Ho : swipes (output (predictWebcam ms dbg f) s) = []).
  { unfold output. rewrite (predictWebcam_gap ms dbg f s G Hl). reflexivity. }
  destruct (no_baseline_silent ms dbg g (exec (predictWebcam ms dbg f) s)) as [A B];
    [rewrite Hs; reflexivity|].
  rewrite Ho, A. split; [reflexivity|].
  change (exec (run ms dbg []) ?t) with t. rewrite B, Hs. reflexivity.
Qed.

Lemma frame_after_gap_is_silent_witness :
  processed true noHand
    {| lastYRef := Some 0.75%float; isCooldownRef := false; isMounted := true |} = true
  /\ landmarks noHand = []
  /\ swipes (output (run 1000 true [AnimationFrame noHand; AnimationFrame (detected 0.25%float)])
       {| lastYRef := Some 0.75%float; isCooldownRef := false; isMounted := true |}) = [].
Proof.
  split; [reflexivity|]. split; [reflexivity|].
  apply (frame_after_gap_is_silent 1000 true noHand (detected 0.25%float)
           {| lastYRef := Some 0.75%float; isCooldownRef := false; isMounted := true |});
    reflexivity.
Defined.

(** X7. The threshold is exclusive on both sides: a move of exactly 0.08
    up or down emits nothing and does not lock. *)
Theorem threshold_is_exclusive ms dbg f s hand rest lastY :
  processed dbg f s = true ->
  landmarks f = hand :: rest ->
  isCooldownRef s = false ->
  lastYRef s = Some lastY ->
  (y (wrist hand) - lastY)%float = 0.08%float
  \/ (y (wrist hand) - lastY)%float = (- (0.08))%float ->
  output (predictWebcam ms dbg f) s = [RequestAnimationFrame]
  /\ isCooldownRef (exec (predictWebcam ms dbg f) s) = false.
Proof.
  intros G Hl Hc Hy Hd. unfold output, exec.
  rewrite (predictWebcam_hand ms dbg f s hand rest G Hl), Hy, Hc.
  destruct Hd as [-> | ->]; split; reflexivity.
Qed.

Lemma threshold_is_exclusive_witness :
  processed true (detected 0.08%float)
    {| lastYRef := Some 0%float; isCooldownRef := false; isMounted := true |} = true
  /\ (0.08 - 0)%float = 0.08%float
  /\ output (predictWebcam 1000 true (detected 0.08%float))
       {| lastYRef := Some 0%float; isCooldownRef := false; isMounted := true |}
     = [RequestAnimationFrame].
Proof.
  split; [reflexivity|]. split; [reflexivity|].
  apply (threshold_is_exclusive 1000 true (detected 0.08%float)
           {| lastYRef := Some 0%float; isCooldownRef := false; isMounted := true |}
           (handAt 0.08%float) [] 0%float);
    try reflexivity.
  left; reflexivity.
Defined.

(** Comparisons with a NaN difference are false. *)
Lemma is_nan_Prim2SF (v : number) : is_nan v = true -> Prim2SF v = S754_nan.
Proof.
  unfold is_nan. rewrite FloatAxioms.eqb_spec. intros H.
  destruct (Prim2SF v) as [[|]|[|]| |[|] m e]; try reflexivity; try discriminate H;
    unfold SFeqb, SFcompare in H; rewrite Z.compare_refl in H;
    try rewrite Pos.compare_refl in H; try rewrite Pos.compare_cont_refl in H;
    discriminate H.
Qed.

Lemma sub_nan (a b : number) :
  is_nan a = true \/ is_nan b = true -> Prim2SF (a - b) = S754_nan.
Proof.
  intros [H|H]; apply is_nan_Prim2SF in H; rewrite FloatAxioms.sub_spec, H.
  - reflexivity.
  - destruct (Prim2SF a); reflexivity.
Qed.

Lemma ltb_nan (d t : number) :
  Prim2SF d = S754_nan -> (d <? t)%float = false /\ (t <? d)%float = false.
Proof.
  intros H. rewrite !FloatAxioms.ltb_spec, H. split; [reflexivity|].
  destruct (Prim2SF t) as [[|]|[|]| |[|] ? ?]; reflexivity.
Qed.

(** X8. A NaN never triggers a swipe: when the wrist height of the frame
    or the stored baseline is NaN, a processed frame emits nothing and does
    not lock; the wrist height still becomes the baseline. *)
Theorem nan_sample_is_silent ms dbg f s hand rest lastY :
  processed dbg f s = true ->
  landmarks f = hand :: rest ->
  lastYRef s = Some lastY ->
  is_nan (y (wrist hand)) = true \/ is_nan lastY = true ->
  swipes (output (predictWebcam ms dbg f) s) = []
  /\ isCooldownRef (exec (predictWebcam ms dbg f) s) = isCooldownRef s
  /\ lastYRef (exec (predictWebcam ms dbg f) s) = Some (y (wrist hand)).
Proof.
  intros G Hl Hy Hn. apply sub_nan in Hn.
  destruct (ltb_nan _ (- (0.08))%float Hn) as [A _].
  destruct (ltb_nan _ 0.08%float Hn) as [_ B].
  unfold output, exec.
  rewrite (predictWebcam_hand ms dbg f s hand rest G Hl), Hy, A, B.
  destruct (isCooldownRef s); repeat split.
Qed.

Lemma nan_sample_is_silent_witness :
  processed true (detected nan)
    {| lastYRef := Some 0.5%float; isCooldownRef := false; isMounted := true |} = true
  /\ is_nan nan = true
  /\ swipes (output (predictWebcam 1000 true (detected nan))
       {| lastYRef := Some 0.5%float; isCooldownRef := false; isMounted := true |}) = [].
Proof.
  split; [reflexivity|]. split; [reflexivity|].
  apply (nan_sample_is_silent 1000 true (detected nan)
           {| lastYRef := Some 0.5%float; isCooldownRef := false; isMounted := true |}
           (handAt nan) [] 0.5%float);
    try reflexivity.
  left; reflexivity.
Defined.

(** ** The feed controller over sequences of swipes *)

Lemma handleSwipe_in_range v p d i :
  0 <= i < panelCount v -> 0 <= fst (handleSwipe v p d i) < panelCount v.
Proof.
  intros Hi. rewrite handleSwipe_index. destruct d.
  - destruct (Z.ltb_spec i (panelCount v - 1)); lia.
  - rewrite Z.gtb_ltb. destruct (Z.ltb_spec 0 i); lia.
Qed.

Lemma swipeAll_in_range v p ds : forall i,
  0 <= i < panelCount v -> 0 <= swipeAll v p ds i < panelCount v.
Proof.
  induction ds as [|d ds IH]; intros i Hi; cbn [swipeAll]; [exact Hi|].
  apply IH, handleSwipe_in_range, Hi.
Qed.

(** X9. Opposite swipes undo each other away from the ends: PREV after a
    NEXT that moved, and NEXT after a PREV that moved, give the index back.
    A swipe swallowed at an end is not remembered: NEXT on the last panel
    followed by PREV lands one panel before the last. *)
Theorem handleSwipe_round_trip v p q i :
  (0 <= i < panelCount v - 1 ->
     fst (handleSwipe v q PREV (fst (handleSwipe v p NEXT i))) = i)
  /\ (0 < i < panelCount v ->
     fst (handleSwipe v q NEXT (fst (handleSwipe v p PREV i))) = i)
  /\ (i = panelCount v - 1 ->
     fst (handleSwipe v q PREV (fst (handleSwipe v p NEXT i))) = panelCount v - 2).
Proof.
  rewrite !handleSwipe_index, !Z.gtb_ltb, panelCount_eq.
  repeat split; intros Hi.
  - destruct (Z.ltb_spec i (4 - 1)); [|lia].
    destruct (Z.ltb_spec 0 (i + 1)); lia.
  - destruct (Z.ltb_spec 0 i); [|lia].
    destruct (Z.ltb_spec (i - 1) (4 - 1)); lia.
  - subst i. reflexivity.
Qed.

Lemma handleSwipe_round_trip_witness :
  0 <= 2 < panelCount VideoFeed - 1
  /\ fst (handleSwipe VideoFeed {| containerRef := true; innerHeight := 600 |} PREV
       (fst (handleSwipe VideoFeed {| containerRef := true; innerHeight := 800 |} NEXT 2)))
     = 2.
Proof.
  assert (H : 0 <= 2 < panelCount VideoFeed - 1) by (cbv; split; congruence).
  split; [exact H|].
  exact (proj1 (handleSwipe_round_trip VideoFeed
                  {| containerRef := true; innerHeight := 800 |}
                  {| containerRef := true; innerHeight := 600 |} 2) H).
Defined.

(** X10. The feed saturates and never wraps: [n] NEXT swipes from an index
    at or before the last panel lead to [min (i + n) (panelCount - 1)], and
    [n] PREV swipes from a non-negative index to [max (i - n) 0]. *)
Theorem swipeAll_saturates v p n i :
  (i <= panelCount v - 1 ->
     swipeAll v p (repeat NEXT n) i = Z.min (i + Z.of_nat n) (panelCount v - 1))
  /\ (0 <= i ->
     swipeAll v p (repeat PREV n) i = Z.max (i - Z.of_nat n) 0).
Proof.
  split; revert i; induction n as [|n IH]; intros i Hi;
    cbn [repeat swipeAll]; try lia.
  - rewrite handleSwipe_index.
    destruct (Z.ltb_spec i (panelCount v - 1)); rewrite IH; lia.
  - rewrite handleSwipe_index, Z.gtb_ltb.
    destruct (Z.ltb_spec 0 i); rewrite IH; lia.
Qed.

Lemma swipeAll_saturates_witness :
  1 <= panelCount ColorPanels - 1
  /\ swipeAll ColorPanels {| containerRef := true; innerHeight := 800 |}
       (repeat NEXT 7) 1 = 3.
Proof.
  assert (H : 1 <= panelCount ColorPanels - 1) by (cbv; congruence).
  split; [exact H|].
  exact (proj1 (swipeAll_saturates ColorPanels
                  {| containerRef := true; innerHeight := 800 |} 7 1) H).
Defined.

(** X11. Scroll requests stay on the panels: over any sequence of swipes
    from an index in range, there is at most one request per swipe, and
    every request is a smooth scroll to [k * innerHeight] for a panel [k]
    of the feed. *)
Theorem scrollAll_targets_panels v p ds i :
  0 <= i < panelCount v ->
  (List.length (scrollAll v p ds i) <= List.length ds)%nat
  /\ Forall (fun r => behavior r = "smooth"%string
                      /\ exists k, 0 <= k < panelCount v /\ top r = k * innerHeight p)
       (scrollAll v p ds i).
Proof.
  revert i. induction ds as [|d ds IH]; intros i Hi; cbn [scrollAll].
  - split; [cbn; lia|constructor].
  - pose proof (handleSwipe_in_range v p d i Hi) as Hn.
    destruct (IH _ Hn) as [L F].
    rewrite length_app, handleSwipe_requests. cbv zeta.
    destruct (fst (handleSwipe v p d i) =? i); [|destruct (containerRef p)];
      cbn [List.length app]; (split; [lia|]); try exact F.
    constructor; [|exact F]. cbn [top behavior].
    split; [reflexivity|]. exists (fst (handleSwipe v p d i)). split; [exact Hn|reflexivity].
Qed.

Lemma scrollAll_targets_panels_witness :
  0 <= 0 < panelCount ColorPanels
  /\ (List.length (scrollAll ColorPanels {| containerRef := true; innerHeight := 800 |}
        [PREV; NEXT; NEXT] 0) <= 3)%nat.
Proof.
  assert (H : 0 <= 0 < panelCount ColorPanels) by (cbv; split; congruence).
  split; [exact H|].
  exact (proj1 (scrollAll_targets_panels ColorPanels
                  {| containerRef := true; innerHeight := 800 |} [PREV; NEXT; NEXT] 0 H)).
Defined.

(** X12. The application end to end: whatever the camera shows and
    whenever timers fire, the active index stays within the feed; and as
    long as no cooldown timer has fired, it has moved by at most one panel
    from the start. *)
Theorem app_index_stays_in_feed v p ts :
  0 <= activeIndexAfter v p ts < panelCount v
  /\ (timerFree ts = true -> 0 <= activeIndexAfter v p ts <= 1).
Proof.
  assert (I0 : 0 <= initialActiveIndex v < panelCount v).
  { rewrite panelCount_eq. destruct v; cbv; split; congruence. }
  unfold activeIndexAfter. split; [apply swipeAll_in_range, I0|].
  intros Ht.
  pose proof (run_at_most_one_swipe (cooldownDelay v) true ts initialStore Ht) as L.
  destruct (swipes (output (run (cooldownDelay v) true ts) initialStore))
    as [|d [|d' evs]]; cbn [List.length swipeAll] in *; [| |lia].
  - destruct v; cbv; split; congruence.
  - rewrite handleSwipe_index, Z.gtb_ltb, panelCount_eq.
    replace (initialActiveIndex v) with 0 by (destruct v; reflexivity).
    destruct d; cbn; lia.
Qed.

Lemma app_index_stays_in_feed_witness :
  timerFree [AnimationFrame (detected 0.75%float); AnimationFrame (detected 0.5%float);
             AnimationFrame (detected 0.25%float)] = true
  /\ 0 <= activeIndexAfter VideoFeed {| containerRef := true; innerHeight := 800 |}
            [AnimationFrame (detected 0.75%float); AnimationFrame (detected 0.5%float);
             AnimationFrame (detected 0.25%float)] <= 1.
Proof.
  split; [reflexivity|].
  exact (proj2 (app_index_stays_in_feed VideoFeed
                  {| containerRef := true; innerHeight := 800 |}
                  [AnimationFrame (detected 0.75%float); AnimationFrame (detected 0.5%float);
                   AnimationFrame (detected 0.25%float)]) eq_refl).
Defined.

(** ** The playback effect of the video feed *)

(** The calls of the [forEach]: those of the visits of the elements that
    are not null, each at its own index. *)
Lemma forEachFrom_In a refs : forall start c,
  In c (Playback.forEachFrom a refs start) <->
  exists k, nth_error refs k = Some true
            /\ In c (Playback.visit a true (start + Z.of_nat k)).
Proof.
  induction refs as [|video rest IH]; intros start c; cbn [Playback.forEachFrom].
  - split; [intros []|intros [[|k] [H _]]; discriminate H].
  - rewrite in_app_iff, IH. split.
    + intros [H|[k [Hk H]]].
      * exists 0%nat. destruct video; [|destruct H].
        split; [reflexivity|]. rewrite Z.add_0_r. exact H.
      * exists (S k). split; [exact Hk|].
        replace (start + Z.of_nat (S k)) with (start + 1 + Z.of_nat k) by lia. exact H.
    + intros [[|k] [Hk H]].
      * left. cbn in Hk. injection Hk as ->. rewrite Z.add_0_r in H. exact H.
      * right. exists k. split; [exact Hk|].
        replace (start + 1 + Z.of_nat k) with (start + Z.of_nat (S k)) by lia. exact H.
Qed.

Lemma visit_In a index c :
  In c (Playback.visit a true index) ->
  Playback.callIndex c = index
  /\ (Playback.isPlay c = true -> index = a /\ c = Playback.Play a)
  /\ (c = Playback.SetMuted index false \/ c = Playback.Play index
      \/ c = Playback.Pause index \/ c = Playback.SetCurrentTime index 0).
Proof.
  unfold Playback.visit. cbn [negb].
  destruct (Z.eqb_spec index a) as [->|Hne]; cbn [In];
    intros [<-|[<-|[]]]; cbn; repeat split; try discriminate; auto.
Qed.

Lemma playbackEffect_In rejects refs a c :
  In c (Playback.playbackEffect rejects refs a) ->
  In c (Playback.forEachFrom a refs 0)
  \/ (rejects = true
      /\ (exists k, nth_error refs k = Some true /\ Z.of_nat k = a)
      /\ (c = Playback.SetMuted a true \/ c = Playback.Play a)).
Proof.
  unfold Playback.playbackEffect. rewrite in_app_iff. intros [H|H]; [now left|].
  destruct rejects; cbn [andb] in H; [|destruct H].
  destruct (existsb Playback.isPlay (Playback.forEachFrom a refs 0)) eqn:E; [|destruct H].
  right. split; [reflexivity|]. split.
  - apply existsb_exists in E. destruct E as [c' [Hc' Hp]].
    apply forEachFrom_In in Hc'. destruct Hc' as [k [Hk Hv]].
    exists k. split; [exact Hk|].
    destruct (visit_In a _ c' Hv) as [_ [P _]]. destruct (P Hp) as [P' _]. lia.
  - cbn [Playback.playRejected In] in H. destruct H as [<-|[<-|[]]]; auto.
Qed.

(** X13. One video plays, the others are stopped: every [play()] of the
    effect is made on the element at [activeIndex]; every other element
    that is not null is paused and rewound to 0; the active element, when
    it is not null, is unmuted and played. *)
Theorem playback_plays_only_active rejects refs a :
  (forall c, In c (Playback.playbackEffect rejects refs a) ->
     Playback.isPlay c = true -> c = Playback.Play a)
  /\ (forall k, nth_error refs k = Some true -> Z.of_nat k <> a ->
        In (Playback.Pause (Z.of_nat k)) (Playback.playbackEffect rejects refs a)
        /\ In (Playback.SetCurrentTime (Z.of_nat k) 0)
             (Playback.playbackEffect rejects refs a))
  /\ (forall k, nth_error refs k = Some true -> Z.of_nat k = a ->
        In (Playback.SetMuted a false) (Playback.playbackEffect rejects refs a)
        /\ In (Playback.Play a) (Playback.playbackEffect rejects refs a)).
Proof.
  split; [|split].
  - intros c Hc Hp. apply playbackEffect_In in Hc. destruct Hc as [H|[_ [_ [->| ->]]]].
    + apply forEachFrom_In in H. destruct H as [k [_ Hv]].
      destruct (visit_In a _ c Hv) as [_ [P _]]. apply (P Hp).
    + discriminate Hp.
    + reflexivity.
  - intros k Hk Hne. unfold Playback.playbackEffect. rewrite !in_app_iff.
    split; left; apply forEachFrom_In; exists k; (split; [exact Hk|]);
      unfold Playback.visit; cbn [negb];
      destruct (Z.eqb_spec (0 + Z.of_nat k) a); try lia; cbn; auto.
  - intros k Hk He. unfold Playback.playbackEffect. rewrite !in_app_iff.
    split; left; apply forEachFrom_In; exists k; (split; [exact Hk|]);
      unfold Playback.visit; cbn [negb];
      destruct (Z.eqb_spec (0 + Z.of_nat k) a); try lia; subst a; cbn; auto.
Qed.

Lemma playback_plays_only_active_witness :
  nth_error [true; true; false; true] 3 = Some true
  /\ Z.of_nat 3 <> 1
  /\ In (Playback.Pause 3) (Playback.playbackEffect false [true; true; false; true] 1).
Proof.
  assert (H : Z.of_nat 3 <> 1) by discriminate.
  split; [reflexivity|]. split; [exact H|].
  exact (proj1 (proj1 (proj2 (playback_plays_only_active false
                  [true; true; false; true] 1)) 3%nat eq_refl H)).
Defined.

(** X14. The effect only touches elements that exist: every call is made
    on an index whose entry in [videoRefs.current] is not null (so an
    active index outside the list plays nothing), and an element is muted
    only by the handler of a rejected [play()]. *)
Theorem playback_touches_only_mounted rejects refs a :
  (forall c, In c (Playback.playbackEffect rejects refs a) ->
     exists k, nth_error refs k = Some true /\ Playback.callIndex c = Z.of_nat k)
  /\ (forall index, In (Playback.SetMuted index true)
                      (Playback.playbackEffect rejects refs a) ->
        rejects = true /\ index = a).
Proof.
  split.
  - intros c Hc. apply playbackEffect_In in Hc.
    destruct Hc as [H|[_ [[k [Hk He]] Hc]]].
    + apply forEachFrom_In in H. destruct H as [k [Hk Hv]].
      exists k. split; [exact Hk|].
      destruct (visit_In a _ c Hv) as [I _]. rewrite I. lia.
    + exists k. split; [exact Hk|]. destruct Hc as [-> | ->]; cbn; lia.
  - intros index Hc. apply playbackEffect_In in Hc.
    destruct Hc as [H|[R [_ [Hc|Hc]]]].
    + apply forEachFrom_In in H. destruct H as [k [_ Hv]].
      destruct (visit_In a _ _ Hv) as [_ [_ [E|[E|[E|E]]]]]; discriminate E.
    + injection Hc as ->. split; [exact R|reflexivity].
    + discriminate Hc.
Qed.

Lemma playback_touches_only_mounted_witness :
  In (Playback.SetMuted 1 true) (Playback.playbackEffect true [true; true; false; true] 1)
  /\ true = true /\ 1 = 1.
Proof.
  assert (H : In (Playback.SetMuted 1 true)
                (Playback.playbackEffect true [true; true; false; true] 1))
    by (cbn; tauto).
  split; [exact H|].
  exact (proj2 (playback_touches_only_mounted true [true; true; false; true] 1) 1 H).
Defined.

(** ** [setup] *)

(** [isMounted] never comes back. *)
Lemma isMountedAfter_mono e j k :
  (j <= k)%nat -> Setup.isMountedAfter e k = true -> Setup.isMountedAfter e j = true.
Proof.
  unfold Setup.isMountedAfter. destruct (Setup.unmountAt e) as [u|]; [|reflexivity].
  intros Hjk H. apply Nat.ltb_lt in H. apply Nat.ltb_lt. lia.
Qed.

(** X15. [setup] always reports the initialising status first, and then at
    most two more: the ready status, the permission status, the ready status
    followed by the permission status, or the error status with the message
    of the rejected load. The frame loop is started exactly when both loads
    resolve, the camera API is there and grants the stream, and the video
    element is there with the component still mounted once the stream
    arrives; the calls are then the full start-up sequence, with the ready
    status and the first [predictWebcam], followed by the permission status
    exactly when that first call throws with the component still mounted. *)
Theorem setup_reports_and_starts e :
  (exists rest,
     Setup.statuses (Setup.setup e) = "正在初始化 AI 引擎..."%string :: rest
     /\ (rest = []
         \/ rest = ["✅ 准备就绪：请对着摄像头挥手"%string]
         \/ rest = ["❌ 摄像头权限被拒绝"%string]
         \/ rest = ["✅ 准备就绪：请对着摄像头挥手"%string;
                    "❌ 摄像头权限被拒绝"%string]
         \/ exists m, rest = [("❌ 错误: " ++ m)%string]
                      /\ (Setup.forVisionTasks e = Some m
                          \/ Setup.createFromOptions e = Some m)))
  /\ (Setup.calls Setup.PredictWebcam (Setup.setup e) = true <->
      Setup.forVisionTasks e = None /\ Setup.createFromOptions e = None
      /\ Setup.mediaDevices e = true /\ Setup.getUserMedia e = true
      /\ Setup.videoRefCurrent e = true /\ Setup.isMountedAfter e 2 = true)
  /\ (Setup.calls Setup.PredictWebcam (Setup.setup e) = true ->
      Setup.setup e =
        [Setup.OnStatus "正在初始化 AI 引擎..."; Setup.CreateFromOptions;
         Setup.GetUserMedia; Setup.SetSrcObject; Setup.Play;
         Setup.OnStatus "✅ 准备就绪：请对着摄像头挥手"; Setup.PredictWebcam]
        ++ (if Setup.predictWebcamThrows e && Setup.isMountedAfter e 3
            then [Setup.OnStatus "❌ 摄像头权限被拒绝"]
            else []))
  /\ (Setup.statuses (Setup.setup e)
      = ["正在初始化 AI 引擎..."%string; "✅ 准备就绪：请对着摄像头挥手"%string;
         "❌ 摄像头权限被拒绝"%string] <->
      Setup.calls Setup.PredictWebcam (Setup.setup e) = true
      /\ Setup.predictWebcamThrows e = true /\ Setup.isMountedAfter e 3 = true).
Proof.
  pose proof (isMountedAfter_mono e 0 2 ltac:(lia)) as M.
  unfold Setup.setup, Setup.calls.
  destruct (Setup.forVisionTasks e) as [m0|];
    destruct (Setup.isMountedAfter e 0) eqn:M0;
    destruct (Setup.createFromOptions e) as [m1|];
    destruct (Setup.isMountedAfter e 1) eqn:M1;
    destruct (Setup.mediaDevices e);
    destruct (Setup.getUserMedia e);
    destruct (Setup.videoRefCurrent e);
    destruct (Setup.isMountedAfter e 2) eqn:M2;
    destruct (Setup.predictWebcamThrows e);
    destruct (Setup.isMountedAfter e 3) eqn:M3;
    cbn [negb andb Setup.statuses existsb Setup.Call_eqb orb app];
    (split; [eexists; split; [reflexivity|]
            |split; [split|split; [|split]]]);
    try (intros H; discriminate H);
    try (intros H; decompose [and] H; discriminate);
    try (intros H; decompose [and] H;
         match goal with X : true = true -> _ |- _ =>
           specialize (X eq_refl); discriminate X end);
    try reflexivity;
    try (repeat split; reflexivity);
    try (now left); try (right; now left); try (right; right; now left);
    try (right; right; right; now left);
    try (right; right; right; right; eexists; split; [reflexivity|auto]).
Qed.

Lemma setup_reports_and_starts_witness :
  Setup.calls Setup.PredictWebcam (Setup.setup
    {| Setup.forVisionTasks := None; Setup.createFromOptions := None;
       Setup.mediaDevices := true; Setup.getUserMedia := true;
       Setup.videoRefCurrent := true;
       Setup.predictWebcamThrows := true; Setup.unmountAt := None |}) = true
  /\ Setup.statuses (Setup.setup
    {| Setup.forVisionTasks := None; Setup.createFromOptions := None;
       Setup.mediaDevices := true; Setup.getUserMedia := true;
       Setup.videoRefCurrent := true;
       Setup.predictWebcamThrows := true; Setup.unmountAt := None |})
     = ["正在初始化 AI 引擎..."%string; "✅ 准备就绪：请对着摄像头挥手"%string;
        "❌ 摄像头权限被拒绝"%string].
Proof.
  split; [reflexivity|].
  rewrite (proj1 (proj2 (proj2 (setup_reports_and_starts
    {| Setup.forVisionTasks := None; Setup.createFromOptions := None;
       Setup.mediaDevices := true; Setup.getUserMedia := true;
       Setup.videoRefCurrent := true;
       Setup.predictWebcamThrows := true; Setup.unmountAt := None |}))) eq_refl).
  reflexivity.
Defined.

(** X16. A cleanup that overtakes [setup]: when it runs during the first
    [await], [setup] does nothing beyond the initialising status; when it
    runs before the camera stream arrives, the stream is never attached,
    the loop never started, and no status follows when both loads have
    succeeded; yet when it runs after the load of the vision files, with the
    recogniser created and the camera API there, the camera is still
    requested. *)
Theorem setup_after_unmount e j :
  Setup.unmountAt e = Some j ->
  (j = 0%nat ->
     Setup.setup e = [Setup.OnStatus "正在初始化 AI 引擎..."])
  /\ ((j <= 2)%nat ->
     Setup.calls Setup.PredictWebcam (Setup.setup e) = false
     /\ Setup.calls Setup.SetSrcObject (Setup.setup e) = false
     /\ (Setup.forVisionTasks e = None -> Setup.createFromOptions e = None ->
         Setup.statuses (Setup.setup e) = ["正在初始化 AI 引擎..."%string]))
  /\ ((1 <= j <= 2)%nat ->
     Setup.forVisionTasks e = None -> Setup.createFromOptions e = None ->
     Setup.mediaDevices e = true ->
     Setup.calls Setup.GetUserMedia (Setup.setup e) = true).
Proof.
  intros Hu.
  assert (M : forall k, Setup.isMountedAfter e k = Nat.ltb k j).
  { intros k. unfold Setup.isMountedAfter. rewrite Hu. reflexivity. }
  unfold Setup.setup, Setup.calls. rewrite !M.
  split; [|split].
  - intros ->. cbn [Nat.ltb Nat.leb negb].
    destruct (Setup.forVisionTasks e); reflexivity.
  - intros Hj.
    assert (H2 : Nat.ltb 2 j = false) by (apply Nat.ltb_ge; lia).
    assert (H1 : Nat.ltb 1 j = true -> Nat.ltb 0 j = true)
      by (rewrite !Nat.ltb_lt; lia).
    rewrite H2, andb_false_r.
    destruct (Setup.forVisionTasks e) as [m0|];
      destruct (Nat.ltb 0 j);
      destruct (Setup.createFromOptions e) as [m1|];
      destruct (Nat.ltb 1 j);
      destruct (Setup.mediaDevices e);
      destruct (Setup.getUserMedia e);
      cbn [negb Setup.statuses existsb Setup.Call_eqb orb app];
      repeat split; try reflexivity; try (intros; discriminate);
      specialize (H1 eq_refl); discriminate H1.
  - intros Hj -> -> ->.
    assert (H0 : Nat.ltb 0 j = true) by (apply Nat.ltb_lt; lia).
    rewrite H0. cbn [negb]. reflexivity.
Qed.

Lemma setup_after_unmount_witness :
  Setup.unmountAt
    {| Setup.forVisionTasks := None; Setup.createFromOptions := None;
       Setup.mediaDevices := true; Setup.getUserMedia := true;
       Setup.videoRefCurrent := true;
       Setup.predictWebcamThrows := false; Setup.unmountAt := Some 1%nat |} = Some 1%nat
  /\ (1 <= 2)%nat
  /\ Setup.calls Setup.PredictWebcam (Setup.setup
       {| Setup.forVisionTasks := None; Setup.createFromOptions := None;
          Setup.mediaDevices := true; Setup.getUserMedia := true;
          Setup.videoRefCurrent := true;
       Setup.predictWebcamThrows := false; Setup.unmountAt := Some 1%nat |}) = false.
Proof.
  assert (H : (1 <= 2)%nat) by lia.
  split; [reflexivity|]. split; [exact H|].
  exact (proj1 (proj1 (proj2 (setup_after_unmount
    {| Setup.forVisionTasks := None; Setup.createFromOptions := None;
       Setup.mediaDevices := true; Setup.getUserMedia := true;
       Setup.videoRefCurrent := true;
       Setup.predictWebcamThrows := false; Setup.unmountAt := Some 1%nat |} 1%nat eq_refl)) H)).
Defined.
